(** * ParleyAI, [backend/mlx_transformer.py]: the MLX Llama session wrapper

    A shallow embedding of the module and the properties of its
    construction, generation, chat, streaming and command-line paths.

    The module is a delegation layer: everything it does is to print,
    to look a variant up in a fixed table and to call into the MLX
    libraries.  The embedding therefore keeps the two things an observer
    of this layer can see: the ordered trace of prints and external calls
    (with the positional and keyword arguments as the source writes them)
    and the outcome (a value or a raised exception). *)

From Stdlib Require Import ZArith QArith List String Ascii Bool Lia DecimalString.
Import ListNotations.
Set Warnings "-register-all".
Local Open Scope string_scope.
Local Open Scope Z_scope.

(** ** Python values, exceptions and the effect monad *)

Module Py.

(** The values that cross the boundary to the external libraries.
    Floats are only ever passed through by this module (never computed
    with), so a float is kept as the decimal literal the source writes,
    a rational. *)
Inductive pyval : Type :=
| PNone
| PBool (b : bool)
| PInt (z : Z)
| PFloat (q : Q)
| PStr (s : string)
| PList (l : list pyval)
| PDict (d : list (string * pyval))
| PObj (id : N)
| PModule (name : string)
| PFunc (qualname : string).

Definition kwargs := list (string * pyval).

Inductive exn : Type :=
| ImportError (name : string)
| ValueError (msg : string)
| SystemExit (code : Z)
| Foreign (what : string).

Inductive result (A : Type) : Type :=
| Ret (a : A)
| Raise (e : exn).
Arguments Ret {A} a.
Arguments Raise {A} e.

Inductive event : Type :=
| EvPrint (line : string)
| EvCall (callee : string) (args : list pyval) (kw : kwargs)
| EvMethod (recv : pyval) (meth : string) (args : list pyval) (kw : kwargs).

Definition trace := list event.

(** A computation: what it printed and called, in order, and how it
    ended. *)
Definition M (A : Type) : Type := (trace * result A)%type.

Definition ret {A} (a : A) : M A := ([], Ret a).
Definition raise {A} (e : exn) : M A := ([], Raise e).

Definition bind {A B} (m : M A) (k : A -> M B) : M B :=
  match m with
  | (t1, Ret a) => let '(t2, r) := k a in ((t1 ++ t2)%list, r)
  | (t1, Raise e) => (t1, Raise e)
  end.

(** [try: body / except ImportError: handler] *)
Definition try_except_ImportError {A} (body : M A) (handler : M A) : M A :=
  match body with
  | (t1, Raise (ImportError _)) => let '(t2, r) := handler in ((t1 ++ t2)%list, r)
  | other => other
  end.

Definition print (line : string) : M unit := ([EvPrint line], Ret tt).

(** [sys.exit(code)] raises [SystemExit]. *)
Definition sys_exit {A} (code : Z) : M A := raise (SystemExit code).

(** The status the interpreter exits with when the script body ends in
    [r]: 0 on a normal end, the code of an uncaught [SystemExit], and 1
    for any other uncaught exception. *)
Definition exit_status {A} (r : result A) : Z :=
  match r with
  | Ret _ => 0
  | Raise (SystemExit code) => code
  | Raise _ => 1
  end.

(** What an external iterator hands out when it is pulled to the end:
    finitely many fragments, then exhaustion or an exception. *)
Inductive stream : Type :=
| SEnd
| SItem (tok : string) (rest : stream)
| SFail (e : exn).

Definition nl : string := String (ascii_of_nat 10) EmptyString.

(** [s * n] on a string. *)
Fixpoint str_repeat (s : string) (n : nat) : string :=
  match n with
  | O => ""
  | S n' => s ++ str_repeat s n'
  end.

(** [str(z)] on an int. *)
Definition str_of_int (z : Z) : string := NilZero.string_of_int (Z.to_int z).

(** [repr(s)] on a string without quotes, backslashes or control
    characters (all that is formatted in this module). *)
Definition repr_str (s : string) : string := "'" ++ s ++ "'".

Fixpoint join (sep : string) (l : list string) : string :=
  match l with
  | [] => ""
  | [x] => x
  | x :: rest => x ++ sep ++ join sep rest
  end.

(** [str(l)] on a list of strings. *)
Definition str_of_list (l : list string) : string :=
  "[" ++ join ", " (map repr_str l) ++ "]".

(** A dict with string keys, in insertion order. *)
Definition dict (V : Type) := list (string * V).

Fixpoint dict_get {V} (d : dict V) (k : string) : option V :=
  match d with
  | [] => None
  | (k', v) :: rest => if String.eqb k k' then Some v else dict_get rest k
  end.

Definition dict_keys {V} (d : dict V) : list string := map fst d.

(** [k in d] *)
Definition dict_mem {V} (d : dict V) (k : string) : bool :=
  match dict_get d k with Some _ => true | None => false end.

End Py.
Import Py.

Notation "x <- c1 ;; c2" := (bind c1 (fun x => c2))
  (at level 61, c1 at next level, right associativity).
Notation "c1 ;;; c2" := (bind c1 (fun _ => c2))
  (at level 61, right associativity).

(** ** The external world *)

(** The collaborators of the module: the import system, the three
    [mlx_lm] routines, the tokenizer's template renderer and [argparse]
    over the process arguments.  Each routine receives the positional and
    keyword arguments of the call. *)
Record Env : Type := {
  importable : string -> bool;
  mlx_lm_load : list pyval -> kwargs -> result (pyval * pyval);
  mlx_lm_generate : list pyval -> kwargs -> result string;
  mlx_lm_stream_generate : list pyval -> kwargs -> stream;
  apply_chat_template : pyval -> list pyval -> kwargs -> result string;
  sys_argv : list string;
  argparse_store_true : string -> list string -> result bool
}.

(** [import name] *)
Definition import_module (env : Env) (name : string) : M pyval :=
  if importable env name then ret (PModule name) else raise (ImportError name).

(** [from name import attr] *)
Definition import_from (env : Env) (name attr : string) : M pyval :=
  if importable env name then ret (PFunc (name ++ "." ++ attr))
  else raise (ImportError name).

Definition check_mlx (env : Env) : M bool :=
  try_except_ImportError
    (mx <- import_module env "mlx.core" ;;
     mlx_lm <- import_module env "mlx_lm" ;;
     ret true)
    (ret false).

(** ** class MLXLlamaTransformer *)

Module MLXLlamaTransformer.

Record ModelInfo : Type := {
  repo : string;
  size_gb : Z;
  quality : string
}.

(** The class attribute [MODELS]. *)
Definition MODELS : dict ModelInfo := [
  ("4bit", {| repo := "mlx-community/Llama-3.3-70B-Instruct-4bit";
              size_gb := 38;
              quality := "Good quality, 4-bit quantization" |});
  ("8bit", {| repo := "mlx-community/Llama-3.3-70B-Instruct-8bit";
              size_gb := 70;
              quality := "High quality, requires 64GB+ RAM" |});
  ("3bit", {| repo := "mlx-community/Llama-3.3-70B-Instruct-3bit";
              size_gb := 28;
              quality := "Lower quality, fits 32GB RAM" |})
].

(** The instance attributes set by the constructor. *)
Record Session : Type := {
  mx : pyval;
  generate_fn : pyval;
  verbose : bool;
  model : pyval;
  tokenizer : pyval
}.

(** Defaults of the keyword parameters. *)
Definition init_default_model_name : string := "4bit".
Definition init_default_max_tokens : Z := 2048.
Definition init_default_verbose : bool := true.
Definition default_max_tokens : Z := 512.
Definition default_temperature : Q := 7 # 10.
Definition default_top_p : Q := 9 # 10.

Definition missing_lines : list string := [
  "Error: MLX not installed.";
  "Install with: pip install mlx mlx-lm transformers"
].

Definition banner_lines (model_name : string) (model_info : ModelInfo) : list string := [
  nl ++ str_repeat "=" 60;
  "MLX Llama 3.3 70B Instruct - " ++ model_name;
  str_repeat "=" 60;
  "Repository: " ++ repo model_info;
  "Size: ~" ++ str_of_int (size_gb model_info) ++ "GB";
  "Quality: " ++ quality model_info;
  str_repeat "=" 60 ++ nl
].

Definition warning_lines : list string := [
  "⚠️  Warning: This model may not fit in 16GB RAM!";
  "   Consider using llama_transformer.py with GGUF models instead.";
  "   GGUF supports streaming from disk with mmap." ++ nl
].

Definition loading_lines (model_info : ModelInfo) : list string := [
  "Loading model from: " ++ repo model_info;
  "This may take several minutes on first download..."
].

Definition loaded_line : string := nl ++ "✓ Model loaded successfully!".

(** Consecutive [print] statements. *)
Fixpoint prints (lines : list string) : M unit :=
  match lines with
  | [] => ret tt
  | l :: rest => print l ;;; prints rest
  end.

(** [if c: body] without an else branch. *)
Definition when (c : bool) (body : M unit) : M unit :=
  if c then body else ret tt.

(** [load(repo)] as imported from [mlx_lm]. *)
Definition call_load (env : Env) (args : list pyval) (kw : kwargs) : M (pyval * pyval) :=
  ([EvCall "mlx_lm.load" args kw], mlx_lm_load env args kw).

Definition call_generate (env : Env) (args : list pyval) (kw : kwargs) : M string :=
  ([EvCall "mlx_lm.generate" args kw], mlx_lm_generate env args kw).

Definition call_apply_chat_template (env : Env) (recv : pyval)
    (args : list pyval) (kw : kwargs) : M string :=
  ([EvMethod recv "apply_chat_template" args kw], apply_chat_template env recv args kw).

Definition unknown_model_message (models : dict ModelInfo) (model_name : string) : string :=
  "Unknown model: " ++ model_name ++ ". Options: " ++ str_of_list (dict_keys models).

(** [__init__].  The table is read as [self.MODELS], an attribute looked
    up through the instance, so the constructor is written over the table
    it finds there; [__init__] below is the class as it stands.  The
    [max_tokens] parameter is accepted and not used. *)
Definition init_over (models : dict ModelInfo) (env : Env)
    (model_name : string) (max_tokens : Z) (verbose : bool) : M Session :=
  ok <- check_mlx env ;;
  when (negb ok)
    (prints missing_lines ;;;
     sys_exit 1) ;;;
  mx <- import_module env "mlx.core" ;;
  load <- import_from env "mlx_lm" "load" ;;
  generate <- import_from env "mlx_lm" "generate" ;;
  if negb (dict_mem models model_name) then
    raise (ValueError (unknown_model_message models model_name))
  else
    match dict_get models model_name with
    | None => raise (Foreign "KeyError")
    | Some model_info =>
        when verbose
          (prints (banner_lines model_name model_info) ;;;
           when (16 <? size_gb model_info)
             (prints warning_lines)) ;;;
        when verbose
          (prints (loading_lines model_info)) ;;;
        mt <- call_load env [PStr (repo model_info)] [] ;;
        when verbose
          (print loaded_line) ;;;
        ret {| mx := mx;
               generate_fn := generate;
               verbose := verbose;
               model := fst mt;
               tokenizer := snd mt |}
    end.

Definition __init__ : Env -> string -> Z -> bool -> M Session := init_over MODELS.

Definition generate (env : Env) (self : Session)
    (prompt : string) (max_tokens : Z) (temperature : Q) (top_p : Q) : M string :=
  generate <- import_from env "mlx_lm" "generate" ;;
  response <- call_generate env
    [model self; tokenizer self]
    [("prompt", PStr prompt);
     ("max_tokens", PInt max_tokens);
     ("temp", PFloat temperature);
     ("top_p", PFloat top_p);
     ("verbose", PBool (verbose self))] ;;
  ret response.

(** A chat message, [{"role": ..., "content": ...}]. *)
Record ChatMessage : Type := {
  role : string;
  content : string
}.

Definition message_val (m : ChatMessage) : pyval :=
  PDict [("role", PStr (role m)); ("content", PStr (content m))].

Definition chat (env : Env) (self : Session)
    (messages : list ChatMessage) (max_tokens : Z) (temperature : Q) : M string :=
  prompt <- call_apply_chat_template env (tokenizer self)
    [PList (map message_val messages)]
    [("tokenize", PBool false);
     ("add_generation_prompt", PBool true)] ;;
  generate env self prompt max_tokens temperature default_top_p.

(** [stream_generate] is a generator function: calling it runs nothing
    and returns a generator object, which is then resumed by [next].
    The object is either not started yet (it holds the arguments),
    suspended at the [yield] inside the loop (it holds the external
    iterator), or finished. *)
Inductive generator : Type :=
| GenCreated (self : Session) (prompt : string) (max_tokens : Z) (temperature : Q)
| GenSuspended (it : stream)
| GenClosed.

Definition stream_generate (self : Session)
    (prompt : string) (max_tokens : Z) (temperature : Q) : generator :=
  GenCreated self prompt max_tokens temperature.

Definition call_stream_generate (env : Env) (args : list pyval) (kw : kwargs) : M stream :=
  ([EvCall "mlx_lm.stream_generate" args kw], Ret (mlx_lm_stream_generate env args kw)).

(** One turn of [for token in it: yield token]: pull one element from
    the external iterator and yield it at once. *)
Definition loop_turn (it : stream) : M (option string) * generator :=
  match it with
  | SEnd => (ret None, GenClosed)
  | SItem token rest => (ret (Some token), GenSuspended rest)
  | SFail e => (raise e, GenClosed)
  end.

(** [next(g)]: [Some token] for a yielded token, [None] for
    [StopIteration]. *)
Definition gen_next (env : Env) (g : generator) : M (option string) * generator :=
  match g with
  | GenCreated self prompt max_tokens temperature =>
      match import_from env "mlx_lm" "stream_generate" with
      | (t0, Raise e) => ((t0, Raise e), GenClosed)
      | (t0, Ret mlx_stream) =>
          match call_stream_generate env
                  [model self; tokenizer self]
                  [("prompt", PStr prompt);
                   ("max_tokens", PInt max_tokens);
                   ("temp", PFloat temperature)] with
          | (t1, Raise e) => (((t0 ++ t1)%list, Raise e), GenClosed)
          | (t1, Ret it) =>
              let '((t2, r), g') := loop_turn it in
              (((t0 ++ t1 ++ t2)%list, r), g')
          end
      end
  | GenSuspended it => loop_turn it
  | GenClosed => (ret None, GenClosed)
  end.

End MLXLlamaTransformer.
Import MLXLlamaTransformer.

(** ** The script *)

Definition intro_lines : list string := [
  nl ++ "⚠️  Note: For 16GB RAM, MLX may struggle with 70B models.";
  "   The recommended approach is llama_transformer.py with GGUF models";
  "   which supports mmap for streaming from disk." ++ nl;
  "If you have 32GB+ unified memory, you can try:";
  "  python mlx_transformer.py" ++ nl
].

Definition unconfirmed_lines : list string := [
  "Run with --confirm if you have 32GB+ RAM to proceed.";
  "For 16GB RAM, use the main llama_transformer.py instead."
].

Definition example_messages : list ChatMessage := [
  {| role := "system"; content := "You are a helpful assistant." |};
  {| role := "user"; content := "What is Python?" |}
].

(** [parser.parse_args()] for the parser with the one [store_true] flag
    [--confirm], over the arguments after the script name. *)
Definition parse_args (env : Env) : M bool :=
  ([], argparse_store_true env "--confirm" (tl (sys_argv env))).

Definition main (env : Env) : M unit :=
  prints intro_lines ;;;
  confirm <- parse_args env ;;
  if negb confirm then
    prints unconfirmed_lines
  else
    transformer <- __init__ env "4bit" init_default_max_tokens init_default_verbose ;;
    response <- chat env transformer example_messages
                  default_max_tokens default_temperature ;;
    print (nl ++ "Response: " ++ response).

(** ** Observers used in the statements *)

(** A caller that pulls a generator until it stops, keeping the yielded
    fragments in order and the exception that ended it, if any.  [None]
    only when [fuel] pulls were not enough. *)
Fixpoint consume (env : Env) (fuel : nat) (g : generator)
    : option (trace * (list string * option exn)) :=
  match fuel with
  | O => None
  | S fuel' =>
      match gen_next env g with
      | ((t, Raise e), _) => Some (t, ([], Some e))
      | ((t, Ret None), _) => Some (t, ([], None))
      | ((t, Ret (Some token)), g') =>
          match consume env fuel' g' with
          | None => None
          | Some (t', (tokens, e)) => Some ((t ++ t')%list, (token :: tokens, e))
          end
      end
  end.

(** The external iterator pulled to its end. *)
Fixpoint collect (s : stream) : list string * option exn :=
  match s with
  | SEnd => ([], None)
  | SItem token rest => let '(tokens, e) := collect rest in (token :: tokens, e)
  | SFail e => ([], Some e)
  end.

Fixpoint stream_length (s : stream) : nat :=
  match s with
  | SItem _ rest => S (stream_length rest)
  | _ => O
  end.

(** The fragments concatenated, or the exception that cut them short. *)
Definition joined (out : list string * option exn) : result string :=
  match out with
  | (tokens, None) => Ret (String.concat "" tokens)
  | (_, Some e) => Raise e
  end.

(** Both external generation routines are played by one stub, a function
    of the model, the tokenizer and the [prompt], [max_tokens] and [temp]
    keywords: the streaming routine hands out the stub's fragments and the
    one-shot routine returns them concatenated. *)
Definition same_stub (env : Env)
    (stub : list pyval -> option pyval -> option pyval -> option pyval -> stream) : Prop :=
  (forall args kw,
      mlx_lm_stream_generate env args kw =
      stub args (dict_get kw "prompt") (dict_get kw "max_tokens") (dict_get kw "temp")) /\
  (forall args kw,
      mlx_lm_generate env args kw =
      joined (collect
        (stub args (dict_get kw "prompt") (dict_get kw "max_tokens") (dict_get kw "temp")))).

(** The calls made to [callee], in order. *)
Fixpoint calls_of (callee : string) (tr : trace) : list (list pyval * kwargs) :=
  match tr with
  | [] => []
  | EvCall c args kw :: rest =>
      if String.eqb c callee then (args, kw) :: calls_of callee rest
      else calls_of callee rest
  | _ :: rest => calls_of callee rest
  end.

Definition is_load (e : event) : bool :=
  match e with
  | EvCall c _ _ => String.eqb c "mlx_lm.load"
  | _ => false
  end.

(** The first line of the capacity warning. *)
Definition is_warning (e : event) : bool :=
  match e with
  | EvPrint line => String.eqb line (hd "" warning_lines)
  | _ => false
  end.

(** The trace has the capacity warning and, after it, the first load. *)
Fixpoint warned_before_load (tr : trace) : bool :=
  match tr with
  | [] => false
  | e :: rest =>
      if is_load e then false
      else if is_warning e then existsb is_load rest
      else warned_before_load rest
  end.

(** [sub] occurs in [s]. *)
Fixpoint occurs (sub s : string) : bool :=
  if String.prefix sub s then true
  else match s with
       | EmptyString => false
       | String _ s' => occurs sub s'
       end.

(** The spec's error taxonomy: an invalid variant key is a
    ConfigurationError, which the module raises as [ValueError]; a missing
    dependency is the exit of the process. *)
Definition is_ConfigurationError (e : exn) : bool :=
  match e with
  | ValueError _ => true
  | _ => false
  end.

(** [check_mlx] found both modules. *)
Definition runtime_available (env : Env) : bool :=
  importable env "mlx.core" && importable env "mlx_lm".

(** What a constructor run with a known key prints before it loads. *)
Definition lines_before_load (model_name : string) (info : ModelInfo) (verbose : bool)
    : list string :=
  if verbose then
    (banner_lines model_name info
     ++ (if 16 <? size_gb info then warning_lines else [])
     ++ loading_lines info)%list
  else [].

Definition generate_kwargs (self : Session) (prompt : string) (max_tokens : Z)
    (temperature top_p : Q) : kwargs :=
  [("prompt", PStr prompt);
   ("max_tokens", PInt max_tokens);
   ("temp", PFloat temperature);
   ("top_p", PFloat top_p);
   ("verbose", PBool (verbose self))].

Definition stream_kwargs (prompt : string) (max_tokens : Z) (temperature : Q) : kwargs :=
  [("prompt", PStr prompt);
   ("max_tokens", PInt max_tokens);
   ("temp", PFloat temperature)].

Definition template_kwargs : kwargs :=
  [("tokenize", PBool false); ("add_generation_prompt", PBool true)].

(** ** Further observers *)

Definition is_print (e : event) : bool :=
  match e with
  | EvPrint _ => true
  | _ => false
  end.

(** The calls of a trace, in order, with the prints left out. *)
Definition external_events (tr : trace) : trace :=
  filter (fun e => negb (is_print e)) tr.

(** The lines a trace printed, in order. *)
Fixpoint printed (tr : trace) : list string :=
  match tr with
  | [] => []
  | EvPrint line :: rest => line :: printed rest
  | _ :: rest => printed rest
  end.

Definition prints_line (line : string) (tr : trace) : bool :=
  existsb (String.eqb line) (printed tr).

(** A line that [main] prints for a response. *)
Definition is_response (e : event) : bool :=
  match e with
  | EvPrint line => String.prefix (nl ++ "Response: ") line
  | _ => false
  end.

Definition result_map {A B} (f : A -> B) (r : result A) : result B :=
  match r with
  | Ret a => Ret (f a)
  | Raise e => Raise e
  end.

(** What a session holds besides its verbosity flag. *)
Definition handles (s : Session) : pyval * pyval * pyval * pyval :=
  (mx s, generate_fn s, model s, tokenizer s).

(** [n] successive [next(g)], whatever each returns: the events, the
    results in order, and the generator afterwards. *)
Fixpoint pull (env : Env) (n : nat) (g : generator)
    : trace * list (result (option string)) * generator :=
  match n with
  | O => ([], [], g)
  | S n' =>
      let '((t, r), g') := gen_next env g in
      let '(t', rs, g'') := pull env n' g' in
      ((t ++ t')%list, r :: rs, g'')
  end.

(** The external iterator after [n] of its fragments were taken. *)
Fixpoint stream_drop (n : nat) (s : stream) : stream :=
  match n, s with
  | S n', SItem _ rest => stream_drop n' rest
  | _, _ => s
  end.

(** ** Sample environments *)

Module Samples.

Fixpoint stream_of (l : list string) : stream :=
  match l with
  | [] => SEnd
  | x :: rest => SItem x (stream_of rest)
  end.

(** A stub that answers with the prompt, a separator and the prompt
    again, in three fragments. *)
Definition echo_stub (args : list pyval) (prompt max_tokens temp : option pyval) : stream :=
  match prompt with
  | Some (PStr p) => stream_of [p; " | "; p]
  | _ => SFail (Foreign "TypeError")
  end.

Definition render (recv : pyval) (args : list pyval) (kw : kwargs) : result string :=
  match args with
  | [PList l] => Ret ("<" ++ str_of_int (Z.of_nat (List.length l)) ++ " messages>")
  | _ => Raise (Foreign "TypeError")
  end.

Definition flag_present (flag : string) (argv : list string) : result bool :=
  Ret (existsb (String.eqb flag) argv).

(** Both libraries installed. *)
Definition installed (argv : list string) : Env := {|
  importable := fun _ => true;
  mlx_lm_load := fun _ _ => Ret (PObj 1, PObj 2);
  mlx_lm_generate := fun args kw =>
    joined (collect (echo_stub args (dict_get kw "prompt")
                       (dict_get kw "max_tokens") (dict_get kw "temp")));
  mlx_lm_stream_generate := fun args kw =>
    echo_stub args (dict_get kw "prompt") (dict_get kw "max_tokens") (dict_get kw "temp");
  apply_chat_template := render;
  sys_argv := "mlx_transformer.py" :: argv;
  argparse_store_true := flag_present
|}.

(** [mlx_lm] missing. *)
Definition bare (argv : list string) : Env := {|
  importable := fun name => String.eqb name "mlx.core";
  mlx_lm_load := fun _ _ => Raise (Foreign "unreachable");
  mlx_lm_generate := fun _ _ => Raise (Foreign "unreachable");
  mlx_lm_stream_generate := fun _ _ => SFail (Foreign "unreachable");
  apply_chat_template := fun _ _ _ => Raise (Foreign "unreachable");
  sys_argv := "mlx_transformer.py" :: argv;
  argparse_store_true := flag_present
|}.

Definition session : Session := {|
  mx := PModule "mlx.core";
  generate_fn := PFunc "mlx_lm.generate";
  verbose := false;
  model := PObj 1;
  tokenizer := PObj 2
|}.

(** A table with a variant under the 16 GB threshold. *)
Definition small_table : dict ModelInfo := [
  ("2bit", {| repo := "example/tiny-2bit"; size_gb := 16; quality := "Smallest" |})
].

(** One routine behind both entry points whose answer depends on whether
    [top_p] was passed. *)
Definition nucleus_stub (args : list pyval) (kw : kwargs) : stream :=
  match dict_get kw "top_p" with
  | Some _ => stream_of ["nucleus"]
  | None => stream_of ["plain"]
  end.

Definition top_p_sensitive : Env := {|
  importable := fun _ => true;
  mlx_lm_load := fun _ _ => Ret (PObj 1, PObj 2);
  mlx_lm_generate := fun args kw => joined (collect (nucleus_stub args kw));
  mlx_lm_stream_generate := nucleus_stub;
  apply_chat_template := render;
  sys_argv := ["mlx_transformer.py"];
  argparse_store_true := flag_present
|}.

(** The libraries are installed and the repository cannot be reached. *)
Definition offline (argv : list string) : Env := {|
  importable := fun _ => true;
  mlx_lm_load := fun _ _ => Raise (Foreign "ConnectionError");
  mlx_lm_generate := fun _ _ => Raise (Foreign "unreachable");
  mlx_lm_stream_generate := fun _ _ => SFail (Foreign "unreachable");
  apply_chat_template := fun _ _ _ => Raise (Foreign "unreachable");
  sys_argv := "mlx_transformer.py" :: argv;
  argparse_store_true := flag_present
|}.


End Samples.

(** ** Closed forms of the building blocks *)

Lemma prints_spec (lines : list string) :
  prints lines = (map EvPrint lines, Ret tt).
Proof.
  induction lines as [|l rest IH]; [reflexivity|].
  cbn [prints]. rewrite IH. reflexivity.
Qed.

Lemma check_mlx_spec (env : Env) :
  check_mlx env = ([], Ret (runtime_available env)).
Proof.
  unfold check_mlx, runtime_available, import_module.
  destruct (importable env "mlx.core"), (importable env "mlx_lm"); reflexivity.
Qed.

Lemma runtime_available_split (env : Env) :
  runtime_available env = true ->
  importable env "mlx.core" = true /\ importable env "mlx_lm" = true.
Proof. unfold runtime_available. intro H. apply andb_true_iff in H. exact H. Qed.

Lemma init_unavailable (models : dict ModelInfo) (env : Env)
    (model_name : string) (max_tokens : Z) (v : bool) :
  runtime_available env = false ->
  init_over models env model_name max_tokens v =
    (map EvPrint missing_lines, Raise (SystemExit 1)).
Proof.
  intro H. unfold init_over. rewrite check_mlx_spec, H. reflexivity.
Qed.

Lemma init_unknown (models : dict ModelInfo) (env : Env)
    (model_name : string) (max_tokens : Z) (v : bool) :
  runtime_available env = true ->
  dict_get models model_name = None ->
  init_over models env model_name max_tokens v =
    ([], Raise (ValueError (unknown_model_message models model_name))).
Proof.
  intros H Hk. unfold init_over, dict_mem. rewrite check_mlx_spec, H.
  destruct (runtime_available_split env H) as [H1 H2].
  unfold import_module, import_from. rewrite H1, H2, Hk. reflexivity.
Qed.

Lemma init_known (models : dict ModelInfo) (env : Env)
    (model_name : string) (max_tokens : Z) (v : bool) (info : ModelInfo) :
  runtime_available env = true ->
  dict_get models model_name = Some info ->
  init_over models env model_name max_tokens v =
    match mlx_lm_load env [PStr (repo info)] [] with
    | Ret mt =>
        ((map EvPrint (lines_before_load model_name info v)
          ++ EvCall "mlx_lm.load" [PStr (repo info)] []
          :: (if v then [EvPrint loaded_line] else []))%list,
         Ret {| mx := PModule "mlx.core";
                generate_fn := PFunc "mlx_lm.generate";
                verbose := v;
                model := fst mt;
                tokenizer := snd mt |})
    | Raise e =>
        ((map EvPrint (lines_before_load model_name info v)
          ++ [EvCall "mlx_lm.load" [PStr (repo info)] []])%list,
         Raise e)
    end.
Proof.
  intros H Hk. unfold init_over, dict_mem. rewrite check_mlx_spec, H.
  destruct (runtime_available_split env H) as [H1 H2].
  unfold import_module, import_from. rewrite H1, H2, Hk.
  unfold lines_before_load, call_load, when.
  destruct v, (16 <? size_gb info), (mlx_lm_load env [PStr (repo info)] []);
    reflexivity.
Qed.

Lemma init_returns_only_with_runtime (models : dict ModelInfo) (env : Env)
    (model_name : string) (max_tokens : Z) (v : bool) (self : Session) :
  snd (init_over models env model_name max_tokens v) = Ret self ->
  runtime_available env = true.
Proof.
  destruct (runtime_available env) eqn:H; [reflexivity|].
  rewrite (init_unavailable models env model_name max_tokens v H).
  discriminate.
Qed.

(** ** Dictionaries and substrings *)

Lemma dict_get_absent {V} (d : dict V) (k : string) :
  ~ In k (dict_keys d) -> dict_get d k = None.
Proof.
  induction d as [|[k' v] rest IH]; intro Hk; [reflexivity|].
  cbn [dict_get]. destruct (String.eqb_spec k k') as [->|Hne].
  - exfalso. apply Hk. left. reflexivity.
  - apply IH. intro Hin. apply Hk. right. exact Hin.
Qed.

Lemma dict_get_present {V} (d : dict V) (k : string) :
  In k (dict_keys d) -> exists v, dict_get d k = Some v /\ In (k, v) d.
Proof.
  induction d as [|[k' v] rest IH]; intro Hk; [contradiction|].
  cbn [dict_get]. destruct (String.eqb_spec k k') as [->|Hne].
  - exists v. split; [reflexivity | left; reflexivity].
  - destruct Hk as [Heq|Hin]; [cbn in Heq; congruence|].
    destruct (IH Hin) as [w [Hw Hmem]]. exists w. split; [exact Hw | right; exact Hmem].
Qed.

Lemma prefix_append (sub post : string) : String.prefix sub (sub ++ post) = true.
Proof.
  induction sub as [|c sub IH]; cbn.
  - destruct post; reflexivity.
  - destruct (Ascii.ascii_dec c c) as [_|Hne]; [exact IH | contradiction].
Qed.

Lemma occurs_skip (pre sub s : string) :
  occurs sub s = true -> occurs sub (pre ++ s) = true.
Proof.
  induction pre as [|c pre IH]; intro H; [exact H|].
  cbn [append occurs]. rewrite (IH H).
  destruct (String.prefix sub (String c (pre ++ s))); reflexivity.
Qed.

Lemma occurs_middle (pre sub post : string) :
  occurs sub (pre ++ sub ++ post) = true.
Proof.
  apply occurs_skip. destruct (sub ++ post) eqn:E; cbn [occurs];
    rewrite <- E, prefix_append; reflexivity.
Qed.

Lemma calls_of_prints (callee : string) (lines : list string) (rest : trace) :
  calls_of callee (map EvPrint lines ++ rest)%list = calls_of callee rest.
Proof. induction lines as [|l lines IH]; [reflexivity | exact IH]. Qed.

(** ** Construction *)

(** C5: when the availability probe [check_mlx] reports the runtime
    unavailable, the constructor prints the two lines of installation
    guidance and nothing else, makes no call to the load routine, and ends
    in [sys.exit(1)], a non-zero exit status, whatever the model name, the
    [max_tokens] and the verbosity flag are. *)
Theorem unavailable_runtime_exits_before_load :
  forall (env : Env) (model_name : string) (max_tokens : Z) (v : bool),
    snd (check_mlx env) = Ret false ->
    __init__ env model_name max_tokens v =
      (map EvPrint missing_lines, Raise (SystemExit 1)) /\
    calls_of "mlx_lm.load" (fst (__init__ env model_name max_tokens v)) = [] /\
    exit_status (snd (__init__ env model_name max_tokens v)) = 1 /\
    exit_status (snd (__init__ env model_name max_tokens v)) <> 0.
Proof.
  intros env model_name max_tokens v Hprobe.
  rewrite check_mlx_spec in Hprobe. cbn in Hprobe.
  assert (Hoff : runtime_available env = false) by congruence.
  unfold __init__. rewrite (init_unavailable MODELS env model_name max_tokens v Hoff).
  repeat split; try reflexivity. cbn. lia.
Qed.

Lemma unavailable_runtime_exits_before_load_witness :
  snd (check_mlx (Samples.bare [])) = Ret false /\
  __init__ (Samples.bare []) "8bit" 4096 true =
    ([EvPrint "Error: MLX not installed.";
      EvPrint "Install with: pip install mlx mlx-lm transformers"],
     Raise (SystemExit 1)).
Proof.
  split; [reflexivity|].
  apply (unavailable_runtime_exits_before_load (Samples.bare []) "8bit" 4096 true).
  reflexivity.
Defined.

(** C9: the dependency check comes before the key check.  For a key that
    is not in the table, an unavailable runtime ends the constructor in
    the guidance and [sys.exit(1)], with no [ValueError]; and whenever the
    constructor does raise the [ValueError], the probe had reported the
    runtime available. *)
Theorem dependency_check_precedes_key_check :
  forall (env : Env) (model_name : string) (max_tokens : Z) (v : bool),
    ~ In model_name (dict_keys MODELS) ->
    (snd (check_mlx env) = Ret false ->
       __init__ env model_name max_tokens v =
         (map EvPrint missing_lines, Raise (SystemExit 1)) /\
       exit_status (snd (__init__ env model_name max_tokens v)) = 1 /\
       forall msg, snd (__init__ env model_name max_tokens v) <> Raise (ValueError msg)) /\
    (forall msg,
       snd (__init__ env model_name max_tokens v) = Raise (ValueError msg) ->
       snd (check_mlx env) = Ret true) /\
    (snd (check_mlx env) = Ret true ->
       snd (__init__ env model_name max_tokens v) =
         Raise (ValueError (unknown_model_message MODELS model_name))).
Proof.
  intros env model_name max_tokens v Hkey.
  rewrite check_mlx_spec. cbn [snd]. unfold __init__.
  destruct (runtime_available env) eqn:Hrt.
  - rewrite (init_unknown MODELS env model_name max_tokens v Hrt
               (dict_get_absent MODELS model_name Hkey)).
    repeat split; try discriminate; reflexivity.
  - rewrite (init_unavailable MODELS env model_name max_tokens v Hrt).
    repeat split; try discriminate; try reflexivity.
Qed.

Lemma dependency_check_precedes_key_check_witness :
  __init__ (Samples.bare []) "5bit" 2048 true =
    (map EvPrint missing_lines, Raise (SystemExit 1)) /\
  snd (__init__ (Samples.installed []) "5bit" 2048 true) =
    Raise (ValueError "Unknown model: 5bit. Options: ['4bit', '8bit', '3bit']").
Proof.
  assert (Hkey : ~ In "5bit" (dict_keys MODELS)).
  { cbn. intros [H|[H|[H|[]]]]; discriminate H. }
  split.
  - apply (dependency_check_precedes_key_check (Samples.bare []) "5bit" 2048 true Hkey).
    reflexivity.
  - apply (dependency_check_precedes_key_check (Samples.installed []) "5bit" 2048 true Hkey).
    reflexivity.
Defined.

(** C2: with the runtime available, a model name that is not a key of
    [MODELS] makes the constructor raise [ValueError] (the spec's
    ConfigurationError) before it prints or calls anything; the message is
    "Unknown model: <name>. Options: ['4bit', '8bit', '3bit']", so it
    contains the offending name and every valid key, and the load routine
    is not called. *)
Theorem unknown_model_is_configuration_error :
  forall (env : Env) (model_name : string) (max_tokens : Z) (v : bool),
    runtime_available env = true ->
    ~ In model_name (dict_keys MODELS) ->
    exists msg : string,
      __init__ env model_name max_tokens v = ([], Raise (ValueError msg)) /\
      is_ConfigurationError (ValueError msg) = true /\
      msg = "Unknown model: " ++ model_name ++ ". Options: ['4bit', '8bit', '3bit']" /\
      occurs model_name msg = true /\
      (forall k, In k (dict_keys MODELS) -> occurs k msg = true) /\
      calls_of "mlx_lm.load" (fst (__init__ env model_name max_tokens v)) = [].
Proof.
  intros env model_name max_tokens v Hrt Hkey.
  exists (unknown_model_message MODELS model_name).
  unfold __init__.
  rewrite (init_unknown MODELS env model_name max_tokens v Hrt
             (dict_get_absent MODELS model_name Hkey)).
  split; [reflexivity|]. split; [reflexivity|]. split; [reflexivity|].
  split; [|split; [|reflexivity]].
  - unfold unknown_model_message. apply occurs_middle.
  - intros k Hk. unfold unknown_model_message.
    change (str_of_list (dict_keys MODELS)) with "['4bit', '8bit', '3bit']".
    do 2 apply occurs_skip.
    cbn in Hk. destruct Hk as [<-|[<-|[<-|[]]]]; reflexivity.
Qed.

Lemma unknown_model_is_configuration_error_witness :
  exists msg : string,
    __init__ (Samples.installed []) "16bit" 2048 true = ([], Raise (ValueError msg)) /\
    is_ConfigurationError (ValueError msg) = true /\
    msg = "Unknown model: 16bit. Options: ['4bit', '8bit', '3bit']" /\
    occurs "16bit" msg = true /\
    (forall k, In k (dict_keys MODELS) -> occurs k msg = true) /\
    calls_of "mlx_lm.load" (fst (__init__ (Samples.installed []) "16bit" 2048 true)) = [].
Proof.
  apply (unknown_model_is_configuration_error (Samples.installed []) "16bit" 2048 true).
  - reflexivity.
  - cbn. intros [H|[H|[H|[]]]]; discriminate H.
Defined.

Lemma init_known_trace_quiet (models : dict ModelInfo) (env : Env)
    (model_name : string) (max_tokens : Z) (info : ModelInfo) :
  runtime_available env = true ->
  dict_get models model_name = Some info ->
  fst (init_over models env model_name max_tokens false) =
    [EvCall "mlx_lm.load" [PStr (repo info)] []].
Proof.
  intros Hrt Hk. rewrite (init_known models env model_name max_tokens false info Hrt Hk).
  destruct (mlx_lm_load env [PStr (repo info)] []); reflexivity.
Qed.

(** C7: each of the keys "4bit", "8bit" and "3bit" resolves in [MODELS]
    to one record, and to no other: the repository is
    "mlx-community/Llama-3.3-70B-Instruct-<key>", and the sizes and
    quality notes are the fixed ones of the table.  The lookup is a
    function of the key alone, defined on all three keys, and leaves
    nothing in the trace: a non-verbose construction with the runtime
    available consists of the one load call on the record's repository. *)
Theorem variant_lookup_is_total_and_fixed :
  forall (model_name : string),
    In model_name ["4bit"; "8bit"; "3bit"] ->
    exists info : ModelInfo,
      dict_get MODELS model_name = Some info /\
      (forall info', In (model_name, info') MODELS -> info' = info) /\
      repo info = "mlx-community/Llama-3.3-70B-Instruct-" ++ model_name /\
      (model_name = "4bit" ->
         size_gb info = 38 /\ quality info = "Good quality, 4-bit quantization") /\
      (model_name = "8bit" ->
         size_gb info = 70 /\ quality info = "High quality, requires 64GB+ RAM") /\
      (model_name = "3bit" ->
         size_gb info = 28 /\ quality info = "Lower quality, fits 32GB RAM") /\
      dict_keys MODELS = ["4bit"; "8bit"; "3bit"] /\
      (forall (env : Env) (max_tokens : Z),
         runtime_available env = true ->
         fst (__init__ env model_name max_tokens false) =
           [EvCall "mlx_lm.load" [PStr (repo info)] []]).
Proof.
  intros model_name Hin.
  assert (Hkeys : In model_name (dict_keys MODELS)) by exact Hin.
  destruct (dict_get_present MODELS model_name Hkeys) as [info [Hget _]].
  exists info. split; [exact Hget|].
  cbn in Hin. destruct Hin as [<-|[<-|[<-|[]]]]; cbn in Hget;
    injection Hget as <-;
    (split; [cbn; intros info' [H|[H|[H|[]]]]; congruence|]);
    (split; [reflexivity|]);
    (split; [intro; first [discriminate | split; reflexivity]|]);
    (split; [intro; first [discriminate | split; reflexivity]|]);
    (split; [intro; first [discriminate | split; reflexivity]|]);
    (split; [reflexivity|]);
    intros env max_tokens Hrt;
    apply (init_known_trace_quiet MODELS env _ max_tokens _ Hrt); reflexivity.
Qed.

Lemma variant_lookup_is_total_and_fixed_witness :
  exists info : ModelInfo,
    dict_get MODELS "3bit" = Some info /\
    (forall info', In ("3bit", info') MODELS -> info' = info) /\
    repo info = "mlx-community/Llama-3.3-70B-Instruct-3bit" /\
    ("3bit" = "4bit" ->
       size_gb info = 38 /\ quality info = "Good quality, 4-bit quantization") /\
    ("3bit" = "8bit" ->
       size_gb info = 70 /\ quality info = "High quality, requires 64GB+ RAM") /\
    ("3bit" = "3bit" ->
       size_gb info = 28 /\ quality info = "Lower quality, fits 32GB RAM") /\
    dict_keys MODELS = ["4bit"; "8bit"; "3bit"] /\
    (forall (env : Env) (max_tokens : Z),
       runtime_available env = true ->
       fst (__init__ env "3bit" max_tokens false) =
         [EvCall "mlx_lm.load" [PStr (repo info)] []]).
Proof.
  apply (variant_lookup_is_total_and_fixed "3bit").
  cbn. right. right. left. reflexivity.
Defined.

Lemma warned_before_load_known (name : string) (info : ModelInfo) (v : bool)
    (after : trace) :
  let tr := (map EvPrint (lines_before_load name info v)
             ++ EvCall "mlx_lm.load" [PStr (repo info)] [] :: after)%list in
  warned_before_load tr = v && (16 <? size_gb info) /\
  existsb is_warning tr = (v && (16 <? size_gb info)) || existsb is_warning after.
Proof.
  unfold lines_before_load.
  destruct v, (16 <? size_gb info); split; reflexivity.
Qed.

(** C6: with the runtime available and a key the table knows, the
    constructor's trace has the capacity warning, placed before the load
    call, exactly when [verbose] is set and the variant's [size_gb] is
    strictly above 16; otherwise the warning is not printed at all.  So a
    variant of at most 16 GB never warns, a non-verbose construction never
    warns, and the "8bit" (70 GB) and "4bit" (38 GB) variants of [MODELS]
    warn when verbose. *)
Theorem capacity_warning_iff_over_16 :
  forall (models : dict ModelInfo) (env : Env) (model_name : string)
         (max_tokens : Z) (v : bool) (info : ModelInfo),
    runtime_available env = true ->
    dict_get models model_name = Some info ->
    let tr := fst (init_over models env model_name max_tokens v) in
    let tr8 := fst (__init__ env "8bit" max_tokens true) in
    let tr4 := fst (__init__ env "4bit" max_tokens true) in
    warned_before_load tr = v && (16 <? size_gb info) /\
    existsb is_warning tr = v && (16 <? size_gb info) /\
    (v = true -> (warned_before_load tr = true <-> size_gb info > 16)) /\
    (size_gb info <= 16 -> existsb is_warning tr = false) /\
    (v = false -> existsb is_warning tr = false) /\
    warned_before_load tr8 = true /\
    warned_before_load tr4 = true.
Proof.
  intros models env model_name max_tokens v info Hrt Hk tr tr8 tr4.
  assert (Hgen : forall ms nm vb i, dict_get ms nm = Some i ->
            warned_before_load (fst (init_over ms env nm max_tokens vb))
              = vb && (16 <? size_gb i) /\
            existsb is_warning (fst (init_over ms env nm max_tokens vb))
              = vb && (16 <? size_gb i)).
  { intros ms nm vb i Hi. rewrite (init_known ms env nm max_tokens vb i Hrt Hi).
    destruct (mlx_lm_load env [PStr (repo i)] []); cbn [fst];
      (split; [apply warned_before_load_known|]);
      rewrite (proj2 (warned_before_load_known nm i vb _));
      destruct vb; rewrite ?orb_false_r; reflexivity. }
  destruct (Hgen models model_name v info Hk) as [Hw He].
  fold tr in Hw, He.
  split; [exact Hw|]. split; [exact He|].
  split; [|split; [|split; [|split]]].
  - intros ->. rewrite Hw. cbn [andb]. rewrite Z.ltb_lt. lia.
  - intro Hle. rewrite He. apply Z.ltb_ge in Hle. rewrite Hle. apply andb_false_r.
  - intros ->. rewrite He. reflexivity.
  - exact (proj1 (Hgen MODELS "8bit" true _ eq_refl)).
  - exact (proj1 (Hgen MODELS "4bit" true _ eq_refl)).
Qed.

Lemma capacity_warning_iff_over_16_witness :
  let tr := fst (init_over Samples.small_table (Samples.installed []) "2bit" 2048 true) in
  let tr8 := fst (__init__ (Samples.installed []) "8bit" 2048 true) in
  let tr4 := fst (__init__ (Samples.installed []) "4bit" 2048 true) in
  warned_before_load tr = true && (16 <? 16) /\
  existsb is_warning tr = true && (16 <? 16) /\
  (true = true -> (warned_before_load tr = true <-> 16 > 16)) /\
  (16 <= 16 -> existsb is_warning tr = false) /\
  (true = false -> existsb is_warning tr = false) /\
  warned_before_load tr8 = true /\
  warned_before_load tr4 = true.
Proof.
  apply (capacity_warning_iff_over_16 Samples.small_table (Samples.installed []) "2bit"
           2048 true
           {| repo := "example/tiny-2bit"; size_gb := 16; quality := "Smallest" |});
    reflexivity.
Defined.

(** ** Generation and chat *)

Lemma generate_spec (env : Env) (self : Session)
    (prompt : string) (max_tokens : Z) (temperature top_p : Q) :
  importable env "mlx_lm" = true ->
  generate env self prompt max_tokens temperature top_p =
    ([EvCall "mlx_lm.generate" [model self; tokenizer self]
        (generate_kwargs self prompt max_tokens temperature top_p)],
     mlx_lm_generate env [model self; tokenizer self]
        (generate_kwargs self prompt max_tokens temperature top_p)).
Proof.
  intro Hlm. unfold generate, import_from, call_generate, generate_kwargs.
  rewrite Hlm. cbn.
  destruct (mlx_lm_generate env _ _); reflexivity.
Qed.

Lemma message_val_inj (ms ms' : list ChatMessage) :
  map message_val ms = map message_val ms' -> ms = ms'.
Proof.
  revert ms'. induction ms as [|[r c] ms IH]; intros [|[r' c'] ms'] H;
    try discriminate; [reflexivity|].
  cbn in H. injection H as Hr Hc Hrest. subst. f_equal. apply IH. exact Hrest.
Qed.

(** C3: on a session the constructor returned, [generate] makes one
    external call, to [mlx_lm.generate], with the session's model and
    tokenizer and with [prompt], [max_tokens], [temp] and [top_p] equal to
    the values it was given (and [verbose] the session's flag); its
    outcome is the outcome of that call, unchanged. *)
Theorem generate_forwards_verbatim :
  forall (env : Env) (model_name : string) (ctx : Z) (v : bool) (self : Session)
         (prompt : string) (max_tokens : Z) (temperature top_p : Q),
    snd (__init__ env model_name ctx v) = Ret self ->
    let kw := [("prompt", PStr prompt);
               ("max_tokens", PInt max_tokens);
               ("temp", PFloat temperature);
               ("top_p", PFloat top_p);
               ("verbose", PBool (verbose self))] in
    fst (generate env self prompt max_tokens temperature top_p) =
      [EvCall "mlx_lm.generate" [model self; tokenizer self] kw] /\
    snd (generate env self prompt max_tokens temperature top_p) =
      mlx_lm_generate env [model self; tokenizer self] kw /\
    List.length (calls_of "mlx_lm.generate"
                   (fst (generate env self prompt max_tokens temperature top_p))) = 1%nat.
Proof.
  intros env model_name ctx v self prompt max_tokens temperature top_p Hself kw.
  pose proof (init_returns_only_with_runtime MODELS env model_name ctx v self Hself) as Hrt.
  destruct (runtime_available_split env Hrt) as [_ Hlm].
  rewrite (generate_spec env self prompt max_tokens temperature top_p Hlm).
  repeat split.
Qed.

Lemma generate_forwards_verbatim_witness :
  snd (__init__ (Samples.installed []) "4bit" 2048 false) = Ret Samples.session /\
  generate (Samples.installed []) Samples.session "Hello" 64 (1 # 2) (3 # 4) =
    ([EvCall "mlx_lm.generate" [PObj 1; PObj 2]
        [("prompt", PStr "Hello");
         ("max_tokens", PInt 64);
         ("temp", PFloat (1 # 2));
         ("top_p", PFloat (3 # 4));
         ("verbose", PBool false)]],
     Ret "Hello | Hello").
Proof.
  split; [reflexivity|].
  pose proof (generate_forwards_verbatim (Samples.installed []) "4bit" 2048 false
                Samples.session "Hello" 64 (1 # 2) (3 # 4) eq_refl) as [Ht [Hr _]].
  rewrite (surjective_pairing (generate _ _ _ _ _ _)), Ht, Hr. reflexivity.
Defined.

(** C4: on a session the constructor returned, [chat] first calls the
    tokenizer's [apply_chat_template] with the messages in the order
    given, [tokenize=False] and [add_generation_prompt=True]; if that
    raises, the exception is the outcome and nothing else is called;
    otherwise the rendered prompt goes to [generate] with the caller's
    [max_tokens] and temperature and with [top_p] at its default, 0.9. *)
Theorem chat_renders_then_generates :
  forall (env : Env) (model_name : string) (ctx : Z) (v : bool) (self : Session)
         (messages : list ChatMessage) (max_tokens : Z) (temperature : Q),
    snd (__init__ env model_name ctx v) = Ret self ->
    let render_args := [PList (map message_val messages)] in
    let render_kw := [("tokenize", PBool false); ("add_generation_prompt", PBool true)] in
    let render_call := EvMethod (tokenizer self) "apply_chat_template" render_args render_kw in
    default_top_p = 9 # 10 /\
    match apply_chat_template env (tokenizer self) render_args render_kw with
    | Ret prompt =>
        chat env self messages max_tokens temperature =
          ([render_call;
            EvCall "mlx_lm.generate" [model self; tokenizer self]
              [("prompt", PStr prompt);
               ("max_tokens", PInt max_tokens);
               ("temp", PFloat temperature);
               ("top_p", PFloat (9 # 10));
               ("verbose", PBool (verbose self))]],
           snd (generate env self prompt max_tokens temperature default_top_p))
    | Raise e =>
        chat env self messages max_tokens temperature = ([render_call], Raise e)
    end.
Proof.
  intros env model_name ctx v self messages max_tokens temperature Hself
         render_args render_kw render_call.
  pose proof (init_returns_only_with_runtime MODELS env model_name ctx v self Hself) as Hrt.
  destruct (runtime_available_split env Hrt) as [_ Hlm].
  split; [reflexivity|].
  unfold chat, call_apply_chat_template.
  fold render_args. fold render_kw.
  destruct (apply_chat_template env (tokenizer self) render_args render_kw)
    as [prompt|e]; [|reflexivity].
  cbn [bind].
  rewrite (generate_spec env self prompt max_tokens temperature default_top_p Hlm).
  reflexivity.
Qed.

Lemma chat_renders_then_generates_witness :
  snd (__init__ (Samples.installed []) "4bit" 2048 false) = Ret Samples.session /\
  chat (Samples.installed []) Samples.session
       [{| role := "system"; content := "S" |}; {| role := "user"; content := "U" |}]
       32 (1 # 5) =
    ([EvMethod (PObj 2) "apply_chat_template"
        [PList [PDict [("role", PStr "system"); ("content", PStr "S")];
                PDict [("role", PStr "user"); ("content", PStr "U")]]]
        [("tokenize", PBool false); ("add_generation_prompt", PBool true)];
      EvCall "mlx_lm.generate" [PObj 1; PObj 2]
        [("prompt", PStr "<2 messages>");
         ("max_tokens", PInt 32);
         ("temp", PFloat (1 # 5));
         ("top_p", PFloat (9 # 10));
         ("verbose", PBool false)]],
     Ret "<2 messages> | <2 messages>").
Proof.
  split; [reflexivity|].
  exact (proj2 (chat_renders_then_generates (Samples.installed []) "4bit" 2048 false
                  Samples.session
                  [{| role := "system"; content := "S" |};
                   {| role := "user"; content := "U" |}]
                  32 (1 # 5) eq_refl)).
Defined.

(** ** Streaming *)

Lemma consume_suspended (env : Env) (it : stream) :
  forall fuel : nat,
    (stream_length it < fuel)%nat ->
    consume env fuel (GenSuspended it) = Some ([], collect it).
Proof.
  induction it as [|token rest IH|e]; intros [|fuel] Hfuel;
    try (exfalso; cbn in Hfuel; lia); try reflexivity.
  cbn [consume gen_next loop_turn ret].
  rewrite IH by (cbn in Hfuel; lia).
  cbn [collect]. destruct (collect rest) as [tokens e]. reflexivity.
Qed.

Lemma consume_created (env : Env) (self : Session)
    (prompt : string) (max_tokens : Z) (temperature : Q) :
  importable env "mlx_lm" = true ->
  forall fuel : nat,
    (stream_length (mlx_lm_stream_generate env [model self; tokenizer self]
                      (stream_kwargs prompt max_tokens temperature)) < fuel)%nat ->
    consume env fuel (stream_generate self prompt max_tokens temperature) =
      Some ([EvCall "mlx_lm.stream_generate" [model self; tokenizer self]
               (stream_kwargs prompt max_tokens temperature)],
            collect (mlx_lm_stream_generate env [model self; tokenizer self]
                       (stream_kwargs prompt max_tokens temperature))).
Proof.
  intros Hlm [|fuel] Hfuel; [exfalso; lia|].
  unfold stream_generate. cbn [consume gen_next].
  unfold import_from, call_stream_generate. rewrite Hlm. cbn [ret].
  fold (stream_kwargs prompt max_tokens temperature).
  destruct (mlx_lm_stream_generate env [model self; tokenizer self]
              (stream_kwargs prompt max_tokens temperature)) as [|token rest|e];
    try reflexivity.
  cbn [loop_turn ret app].
  rewrite consume_suspended by (cbn in Hfuel; lia).
  cbn [collect]. destruct (collect rest) as [tokens e]. reflexivity.
Qed.

Lemma consume_without_runtime (env : Env) (self : Session)
    (prompt : string) (max_tokens : Z) (temperature : Q) (fuel : nat) :
  importable env "mlx_lm" = false ->
  consume env (S fuel) (stream_generate self prompt max_tokens temperature) =
    Some ([], ([], Some (ImportError "mlx_lm"))).
Proof.
  intro Hlm. unfold stream_generate. cbn [consume gen_next].
  unfold import_from. rewrite Hlm. reflexivity.
Qed.

(** C1: when one stub plays both external routines, pulling the
    generator returned by [stream_generate] until it stops (any number of
    pulls above the number of fragments is enough) and concatenating what
    it yielded gives the outcome of [generate] on the same prompt,
    [max_tokens] and temperature, whatever [top_p] is.  With the runtime
    importable, the fragments received are the external iterator's, all of
    them and in its order, and the only call made is the one to the
    external streaming routine. *)
Theorem stream_generate_concat_eq_generate :
  forall (env : Env)
         (stub : list pyval -> option pyval -> option pyval -> option pyval -> stream)
         (self : Session) (prompt : string) (max_tokens : Z) (temperature top_p : Q)
         (fuel : nat),
    same_stub env stub ->
    (stream_length (mlx_lm_stream_generate env [model self; tokenizer self]
                      (stream_kwargs prompt max_tokens temperature)) < fuel)%nat ->
    exists (tr : trace) (out : list string * option exn),
      consume env fuel (stream_generate self prompt max_tokens temperature) =
        Some (tr, out) /\
      joined out = snd (generate env self prompt max_tokens temperature top_p) /\
      (importable env "mlx_lm" = true ->
         out = collect (mlx_lm_stream_generate env [model self; tokenizer self]
                          (stream_kwargs prompt max_tokens temperature)) /\
         tr = [EvCall "mlx_lm.stream_generate" [model self; tokenizer self]
                 (stream_kwargs prompt max_tokens temperature)]).
Proof.
  intros env stub self prompt max_tokens temperature top_p fuel [Hs Hg] Hfuel.
  destruct (importable env "mlx_lm") eqn:Hlm.
  - eexists. eexists.
    split; [apply (consume_created env self prompt max_tokens temperature Hlm fuel Hfuel)|].
    split; [|intros _; split; reflexivity].
    rewrite (generate_spec env self prompt max_tokens temperature top_p Hlm).
    cbn [snd]. rewrite Hg, Hs. reflexivity.
  - destruct fuel as [|fuel]; [exfalso; lia|].
    eexists. eexists.
    split; [apply (consume_without_runtime env self prompt max_tokens temperature fuel Hlm)|].
    split; [|discriminate].
    unfold generate, import_from. rewrite Hlm. reflexivity.
Qed.

Lemma stream_generate_concat_eq_generate_witness :
  same_stub (Samples.installed []) Samples.echo_stub /\
  consume (Samples.installed []) 4 (stream_generate Samples.session "Hi" 8 (7 # 10)) =
    Some ([EvCall "mlx_lm.stream_generate" [PObj 1; PObj 2]
             [("prompt", PStr "Hi"); ("max_tokens", PInt 8); ("temp", PFloat (7 # 10))]],
          (["Hi"; " | "; "Hi"], None)) /\
  snd (generate (Samples.installed []) Samples.session "Hi" 8 (7 # 10) (9 # 10)) =
    Ret "Hi | Hi".
Proof.
  assert (Hstub : same_stub (Samples.installed []) Samples.echo_stub)
    by (split; intros; reflexivity).
  split; [exact Hstub|].
  destruct (stream_generate_concat_eq_generate (Samples.installed []) Samples.echo_stub
              Samples.session "Hi" 8 (7 # 10) (9 # 10) 4%nat Hstub)
    as [tr [out [Hc [Hj Hfrag]]]].
  - cbn. lia.
  - destruct (Hfrag eq_refl) as [Hout Htr].
    split.
    + rewrite Hc, Hout, Htr. reflexivity.
    + rewrite <- Hj, Hout. reflexivity.
Defined.

(** The stub assumption is needed: a routine that reacts to [top_p] is
    not a stub in the sense of [same_stub], and on it the two paths give
    different texts, because only [generate] passes [top_p]. *)
Remark top_p_sensitive_routine_separates_the_paths :
  (forall stub, ~ same_stub Samples.top_p_sensitive stub) /\
  option_map snd
    (consume Samples.top_p_sensitive 2 (stream_generate Samples.session "Hi" 8 (7 # 10))) =
    Some (["plain"], None) /\
  snd (generate Samples.top_p_sensitive Samples.session "Hi" 8 (7 # 10) default_top_p) =
    Ret "nucleus".
Proof.
  split; [|split; reflexivity].
  intros stub [Hs _].
  pose proof (Hs [] []) as H0.
  pose proof (Hs [] [("top_p", PNone)]) as H1.
  cbn in H0, H1. rewrite <- H0 in H1. discriminate H1.
Qed.

(** C10: the two paths call their delegates with different keyword
    sets.  [generate] passes [prompt], [max_tokens], [temp], [top_p] (the
    value it was given, 0.9 when defaulted) and [verbose] (the session's
    flag); the first pull of [stream_generate] passes [prompt],
    [max_tokens] and [temp] only, with no [top_p] and no [verbose]. *)
Theorem generate_and_stream_forward_different_arguments :
  forall (env : Env) (self : Session) (prompt : string) (max_tokens : Z)
         (temperature top_p : Q),
    importable env "mlx_lm" = true ->
    exists gkw skw : kwargs,
      fst (generate env self prompt max_tokens temperature top_p) =
        [EvCall "mlx_lm.generate" [model self; tokenizer self] gkw] /\
      fst (fst (gen_next env (stream_generate self prompt max_tokens temperature))) =
        [EvCall "mlx_lm.stream_generate" [model self; tokenizer self] skw] /\
      map fst gkw = ["prompt"; "max_tokens"; "temp"; "top_p"; "verbose"] /\
      map fst skw = ["prompt"; "max_tokens"; "temp"] /\
      dict_get gkw "top_p" = Some (PFloat top_p) /\
      dict_get gkw "verbose" = Some (PBool (verbose self)) /\
      dict_get skw "top_p" = None /\
      dict_get skw "verbose" = None /\
      (forall k, In k ["prompt"; "max_tokens"; "temp"] -> dict_get skw k = dict_get gkw k) /\
      gkw <> skw /\
      default_top_p = 9 # 10.
Proof.
  intros env self prompt max_tokens temperature top_p Hlm.
  exists (generate_kwargs self prompt max_tokens temperature top_p).
  exists (stream_kwargs prompt max_tokens temperature).
  split; [rewrite (generate_spec env self prompt max_tokens temperature top_p Hlm);
          reflexivity|].
  split.
  { unfold stream_generate. cbn [gen_next].
    unfold import_from, call_stream_generate. rewrite Hlm.
    fold (stream_kwargs prompt max_tokens temperature).
    destruct (mlx_lm_stream_generate env [model self; tokenizer self]
                (stream_kwargs prompt max_tokens temperature)); reflexivity. }
  repeat (split; [reflexivity|]).
  split; [|split; [discriminate | reflexivity]].
  intros k [<-|[<-|[<-|[]]]]; reflexivity.
Qed.

Lemma generate_and_stream_forward_different_arguments_witness :
  exists gkw skw : kwargs,
    fst (generate (Samples.installed []) Samples.session "Hi" 8 (7 # 10) default_top_p) =
      [EvCall "mlx_lm.generate" [PObj 1; PObj 2] gkw] /\
    fst (fst (gen_next (Samples.installed [])
                (stream_generate Samples.session "Hi" 8 (7 # 10)))) =
      [EvCall "mlx_lm.stream_generate" [PObj 1; PObj 2] skw] /\
    map fst gkw = ["prompt"; "max_tokens"; "temp"; "top_p"; "verbose"] /\
    map fst skw = ["prompt"; "max_tokens"; "temp"] /\
    dict_get gkw "top_p" = Some (PFloat default_top_p) /\
    dict_get gkw "verbose" = Some (PBool false) /\
    dict_get skw "top_p" = None /\
    dict_get skw "verbose" = None /\
    (forall k, In k ["prompt"; "max_tokens"; "temp"] -> dict_get skw k = dict_get gkw k) /\
    gkw <> skw /\
    default_top_p = 9 # 10.
Proof.
  apply (generate_and_stream_forward_different_arguments (Samples.installed [])
           Samples.session "Hi" 8 (7 # 10) default_top_p).
  reflexivity.
Defined.

(** ** The command line *)

Lemma bind_Ret {A B} (t : trace) (a : A) (k : A -> M B) :
  bind (t, Ret a) k = ((t ++ fst (k a))%list, snd (k a)).
Proof. cbn. destruct (k a). reflexivity. Qed.

Lemma bind_Raise {A B} (t : trace) (e : exn) (k : A -> M B) :
  bind (t, Raise e) k = (t, Raise e).
Proof. reflexivity. Qed.

Lemma main_unfold (env : Env) (confirm : bool) :
  argparse_store_true env "--confirm" (tl (sys_argv env)) = Ret confirm ->
  main env =
    let rest :=
      if confirm then
        transformer <- __init__ env "4bit" init_default_max_tokens init_default_verbose ;;
        response <- chat env transformer example_messages
                      default_max_tokens default_temperature ;;
        print (nl ++ "Response: " ++ response)
      else prints unconfirmed_lines in
    ((map EvPrint intro_lines ++ fst rest)%list, snd rest).
Proof.
  intro Hargs. unfold main, parse_args. rewrite prints_spec, Hargs.
  rewrite bind_Ret, bind_Ret. cbn [app]. destruct confirm; reflexivity.
Qed.

(** C8: without [--confirm] (the parser returns [confirm = False]),
    [main] prints the five lines of the note and the two lines of
    guidance, calls nothing and returns, so the script exits with status
    0.  With [--confirm], after the note it runs the constructor for
    "4bit" with the default [max_tokens] and verbosity; when the runtime
    is available and the load, the template rendering and the generation
    all return, the trace is the note, the verbose construction of the
    "4bit" session, one chat exchange on the two example messages with
    the default [max_tokens] and temperature, and the print of
    "\nResponse: <response>". *)
Theorem main_confirm_gate :
  forall (env : Env) (confirm : bool),
    argparse_store_true env "--confirm" (tl (sys_argv env)) = Ret confirm ->
    if confirm then
      (exists rest : trace,
         fst (main env) =
           (map EvPrint intro_lines
            ++ fst (__init__ env "4bit" 2048 true) ++ rest)%list) /\
      (forall (m t : pyval) (prompt response : string),
         runtime_available env = true ->
         mlx_lm_load env [PStr "mlx-community/Llama-3.3-70B-Instruct-4bit"] [] = Ret (m, t) ->
         apply_chat_template env t [PList (map message_val example_messages)]
           [("tokenize", PBool false); ("add_generation_prompt", PBool true)] = Ret prompt ->
         mlx_lm_generate env [m; t]
           [("prompt", PStr prompt);
            ("max_tokens", PInt 512);
            ("temp", PFloat (7 # 10));
            ("top_p", PFloat (9 # 10));
            ("verbose", PBool true)] = Ret response ->
         main env =
           ((map EvPrint intro_lines
             ++ fst (__init__ env "4bit" 2048 true)
             ++ [EvMethod t "apply_chat_template"
                   [PList (map message_val example_messages)]
                   [("tokenize", PBool false); ("add_generation_prompt", PBool true)];
                 EvCall "mlx_lm.generate" [m; t]
                   [("prompt", PStr prompt);
                    ("max_tokens", PInt 512);
                    ("temp", PFloat (7 # 10));
                    ("top_p", PFloat (9 # 10));
                    ("verbose", PBool true)];
                 EvPrint (nl ++ "Response: " ++ response)])%list,
            Ret tt) /\
         calls_of "mlx_lm.load" (fst (main env)) =
           [([PStr "mlx-community/Llama-3.3-70B-Instruct-4bit"], [])])
    else
      main env = (map EvPrint (intro_lines ++ unconfirmed_lines), Ret tt) /\
      exit_status (snd (main env)) = 0 /\
      (forall callee, calls_of callee (fst (main env)) = []) /\
      (forall e, In e (fst (main env)) -> exists line, e = EvPrint line).
Proof.
  intros env confirm Hargs.
  rewrite (main_unfold env confirm Hargs).
  destruct confirm; cbv zeta.
  - change init_default_max_tokens with 2048. change init_default_verbose with true.
    split.
    + cbn [fst].
      destruct (__init__ env "4bit" 2048 true) as [t1 [transformer|e]].
      * rewrite bind_Ret. cbn [fst]. eexists. reflexivity.
      * rewrite bind_Raise. cbn [fst]. exists []. rewrite app_nil_r. reflexivity.
    + intros m t prompt response Hrt Hload Hrender Hgen.
      destruct (runtime_available_split env Hrt) as [_ Hlm].
      assert (Hinit : __init__ env "4bit" 2048 true =
                ((map EvPrint (lines_before_load "4bit"
                    {| repo := "mlx-community/Llama-3.3-70B-Instruct-4bit";
                       size_gb := 38;
                       quality := "Good quality, 4-bit quantization" |} true)
                  ++ [EvCall "mlx_lm.load"
                        [PStr "mlx-community/Llama-3.3-70B-Instruct-4bit"] [];
                      EvPrint loaded_line])%list,
                 Ret {| mx := PModule "mlx.core";
                        generate_fn := PFunc "mlx_lm.generate";
                        verbose := true;
                        model := m;
                        tokenizer := t |})).
      { unfold __init__.
        rewrite (init_known MODELS env "4bit" 2048 true _ Hrt eq_refl).
        cbn [repo]. rewrite Hload. reflexivity. }
      rewrite Hinit. rewrite bind_Ret.
      unfold chat, call_apply_chat_template. cbn [tokenizer model].
      rewrite Hrender. rewrite bind_Ret.
      rewrite generate_spec by exact Hlm.
      unfold generate_kwargs. cbn [tokenizer model verbose].
      change default_max_tokens with 512.
      change default_temperature with (7 # 10).
      change default_top_p with (9 # 10).
      cbn [fst snd]. rewrite Hgen. rewrite bind_Ret. unfold print. cbn [fst snd].
      split; [reflexivity|].
      rewrite calls_of_prints, <- app_assoc, calls_of_prints. reflexivity.
  - rewrite prints_spec. cbn [fst snd]. rewrite <- map_app.
    split; [reflexivity|]. split; [reflexivity|]. split.
    + intro callee. rewrite <- (app_nil_r (map EvPrint _)).
      apply calls_of_prints.
    + intros e He. apply in_map_iff in He. destruct He as [line [<- _]].
      exists line. reflexivity.
Qed.

Lemma main_confirm_gate_witness :
  (main (Samples.installed []) =
     (map EvPrint (intro_lines ++ unconfirmed_lines), Ret tt) /\
   exit_status (snd (main (Samples.installed []))) = 0) /\
  (calls_of "mlx_lm.load" (fst (main (Samples.installed ["--confirm"]))) =
     [([PStr "mlx-community/Llama-3.3-70B-Instruct-4bit"], [])] /\
   last (fst (main (Samples.installed ["--confirm"]))) (EvPrint "") =
     EvPrint (nl ++ "Response: <2 messages> | <2 messages>")).
Proof.
  split.
  - pose proof (main_confirm_gate (Samples.installed []) false eq_refl) as [H0 [H1 _]].
    split; [exact H0 | exact H1].
  - pose proof (main_confirm_gate (Samples.installed ["--confirm"]) true eq_refl)
      as [_ H].
    destruct (H (PObj 1) (PObj 2) "<2 messages>" "<2 messages> | <2 messages>"
                eq_refl eq_refl eq_refl eq_refl) as [Hmain Hload].
    split; [exact Hload|].
    rewrite Hmain. reflexivity.
Defined.

(** * Further properties of the module *)

(** ** The availability probe *)


(** ** Construction, continued *)

Lemma external_events_prints (lines : list string) (rest : trace) :
  external_events (map EvPrint lines ++ rest)%list = external_events rest.
Proof. induction lines as [|l lines IH]; [reflexivity | exact IH]. Qed.

Lemma printed_prints (lines : list string) (rest : trace) :
  printed (map EvPrint lines ++ rest)%list = (lines ++ printed rest)%list.
Proof.
  induction lines as [|l lines IH]; [reflexivity|].
  cbn. rewrite IH. reflexivity.
Qed.

Lemma init_external_events (models : dict ModelInfo) (env : Env)
    (model_name : string) (ctx : Z) (v : bool) :
  external_events (fst (init_over models env model_name ctx v)) =
    if runtime_available env then
      match dict_get models model_name with
      | Some info => [EvCall "mlx_lm.load" [PStr (repo info)] []]
      | None => []
      end
    else [].
Proof.
  destruct (runtime_available env) eqn:Hrt.
  - destruct (dict_get models model_name) as [info|] eqn:Hk.
    + rewrite (init_known models env model_name ctx v info Hrt Hk).
      destruct (mlx_lm_load env [PStr (repo info)] []); cbn [fst];
        rewrite external_events_prints; destruct v; reflexivity.
    + rewrite (init_unknown models env model_name ctx v Hrt Hk). reflexivity.
  - rewrite (init_unavailable models env model_name ctx v Hrt).
    cbn [fst]. rewrite <- (app_nil_r (map EvPrint _)).
    apply external_events_prints.
Qed.

(** X2: the constructor returns a session exactly when the runtime is
    available, the model name is a key of the table and the load call on
    that entry's repository returns; the session then holds the pair the
    load returned as model and tokenizer, and the verbosity flag it was
    given. *)
Theorem init_returns_iff :
  forall (models : dict ModelInfo) (env : Env) (model_name : string) (ctx : Z)
         (v : bool) (self : Session),
    snd (init_over models env model_name ctx v) = Ret self <->
    (runtime_available env = true /\
     exists (info : ModelInfo) (m t : pyval),
       dict_get models model_name = Some info /\
       mlx_lm_load env [PStr (repo info)] [] = Ret (m, t) /\
       self = {| mx := PModule "mlx.core";
                 generate_fn := PFunc "mlx_lm.generate";
                 verbose := v;
                 model := m;
                 tokenizer := t |}).
Proof.
  intros models env model_name ctx v self. split.
  - intro Hself.
    destruct (runtime_available env) eqn:Hrt.
    2:{ rewrite (init_unavailable models env model_name ctx v Hrt) in Hself.
        discriminate Hself. }
    split; [reflexivity|].
    destruct (dict_get models model_name) as [info|] eqn:Hk.
    2:{ rewrite (init_unknown models env model_name ctx v Hrt Hk) in Hself.
        discriminate Hself. }
    rewrite (init_known models env model_name ctx v info Hrt Hk) in Hself.
    destruct (mlx_lm_load env [PStr (repo info)] []) as [[m t]|e] eqn:Hload;
      cbn in Hself; [|discriminate Hself].
    injection Hself as <-. exists info, m, t. repeat split; auto.
  - intros [Hrt [info [m [t [Hk [Hload ->]]]]]].
    rewrite (init_known models env model_name ctx v info Hrt Hk), Hload.
    reflexivity.
Qed.

(** X3: an exception raised by the load call is the constructor's
    outcome, unchanged; the load call is then the last event of the trace
    and the line announcing a loaded model is not printed. *)
Theorem load_failure_propagates :
  forall (models : dict ModelInfo) (env : Env) (model_name : string) (ctx : Z)
         (v : bool) (info : ModelInfo) (e : exn),
    runtime_available env = true ->
    dict_get models model_name = Some info ->
    mlx_lm_load env [PStr (repo info)] [] = Raise e ->
    snd (init_over models env model_name ctx v) = Raise e /\
    last (fst (init_over models env model_name ctx v)) (EvPrint "") =
      EvCall "mlx_lm.load" [PStr (repo info)] [] /\
    prints_line loaded_line (fst (init_over models env model_name ctx v)) = false.
Proof.
  intros models env model_name ctx v info e Hrt Hk Hload.
  rewrite (init_known models env model_name ctx v info Hrt Hk), Hload.
  cbn [fst snd]. split; [reflexivity|]. split.
  - apply last_last.
  - unfold prints_line. rewrite printed_prints. cbn [printed]. rewrite app_nil_r.
    unfold lines_before_load.
    destruct v, (16 <? size_gb info); reflexivity.
Qed.

Lemma load_failure_propagates_witness :
  __init__ (Samples.offline []) "3bit" 2048 false =
    ([EvCall "mlx_lm.load" [PStr "mlx-community/Llama-3.3-70B-Instruct-3bit"] []],
     Raise (Foreign "ConnectionError")).
Proof.
  pose proof (load_failure_propagates MODELS (Samples.offline []) "3bit" 2048 false
                {| repo := "mlx-community/Llama-3.3-70B-Instruct-3bit";
                   size_gb := 28;
                   quality := "Lower quality, fits 32GB RAM" |}
                (Foreign "ConnectionError") eq_refl eq_refl eq_refl) as [Hout _].
  unfold __init__.
  rewrite (surjective_pairing (init_over _ _ _ _ _)), Hout. reflexivity.
Defined.

(** X4: the only external call the constructor ever makes is the load,
    and it makes it at most once: exactly once, on the repository of the
    entry, when the runtime is available and the model name is a key of
    the table, and not at all otherwise. *)
Theorem init_calls_only_load_at_most_once :
  forall (models : dict ModelInfo) (env : Env) (model_name : string) (ctx : Z) (v : bool),
    let tr := fst (init_over models env model_name ctx v) in
    external_events tr =
      (if runtime_available env then
         match dict_get models model_name with
         | Some info => [EvCall "mlx_lm.load" [PStr (repo info)] []]
         | None => []
         end
       else []) /\
    (List.length (external_events tr) <= 1)%nat /\
    (List.length (calls_of "mlx_lm.load" tr) = 1%nat <->
       runtime_available env = true /\ dict_mem models model_name = true).
Proof.
  intros models env model_name ctx v tr.
  pose proof (init_external_events models env model_name ctx v) as Hext.
  fold tr in Hext. split; [exact Hext|]. split.
  - rewrite Hext.
    destruct (runtime_available env), (dict_get models model_name); cbn; lia.
  - unfold tr, dict_mem.
    destruct (runtime_available env) eqn:Hrt.
    + destruct (dict_get models model_name) as [info|] eqn:Hk.
      * rewrite (init_known models env model_name ctx v info Hrt Hk).
        destruct (mlx_lm_load env [PStr (repo info)] []); cbn [fst];
          rewrite calls_of_prints; destruct v; cbn; tauto.
      * rewrite (init_unknown models env model_name ctx v Hrt Hk).
        cbn. split; [discriminate | intros [_ H]; discriminate H].
    + rewrite (init_unavailable models env model_name ctx v Hrt).
      cbn. split; [discriminate | intros [H _]; discriminate H].
Qed.

(** X5: neither the [max_tokens] argument nor the verbosity flag changes
    what the constructor calls or what the session holds: [max_tokens] is
    not used at all, and [verbose] only adds prints and sets the
    session's own flag. *)
Theorem init_ignores_max_tokens_and_verbose_only_prints :
  forall (models : dict ModelInfo) (env : Env) (model_name : string)
         (ctx ctx' : Z) (v v' : bool),
    init_over models env model_name ctx v = init_over models env model_name ctx' v /\
    external_events (fst (init_over models env model_name ctx v)) =
      external_events (fst (init_over models env model_name ctx' v')) /\
    result_map handles (snd (init_over models env model_name ctx v)) =
      result_map handles (snd (init_over models env model_name ctx' v')) /\
    result_map verbose (snd (init_over models env model_name ctx v)) =
      result_map (fun _ => v) (snd (init_over models env model_name ctx' v')).
Proof.
  intros models env model_name ctx ctx' v v'.
  split; [reflexivity|].
  split; [rewrite !init_external_events; reflexivity|].
  destruct (runtime_available env) eqn:Hrt.
  - destruct (dict_get models model_name) as [info|] eqn:Hk.
    + rewrite (init_known models env model_name ctx v info Hrt Hk).
      rewrite (init_known models env model_name ctx' v' info Hrt Hk).
      destruct (mlx_lm_load env [PStr (repo info)] []); split; reflexivity.
    + rewrite (init_unknown models env model_name ctx v Hrt Hk).
      rewrite (init_unknown models env model_name ctx' v' Hrt Hk).
      split; reflexivity.
  - rewrite (init_unavailable models env model_name ctx v Hrt).
    rewrite (init_unavailable models env model_name ctx' v' Hrt).
    split; reflexivity.
Qed.

(** X6: a non-verbose constructor is silent except for the missing
    dependency: it prints the two lines of installation guidance when the
    runtime is unavailable and nothing in every other case, also when it
    raises for an unknown key or when the load fails. *)
Theorem quiet_init_prints_only_missing_dependency :
  forall (models : dict ModelInfo) (env : Env) (model_name : string) (ctx : Z),
    printed (fst (init_over models env model_name ctx false)) =
      if runtime_available env then [] else missing_lines.
Proof.
  intros models env model_name ctx.
  destruct (runtime_available env) eqn:Hrt.
  - destruct (dict_get models model_name) as [info|] eqn:Hk.
    + rewrite (init_known models env model_name ctx false info Hrt Hk).
      destruct (mlx_lm_load env [PStr (repo info)] []); reflexivity.
    + rewrite (init_unknown models env model_name ctx false Hrt Hk). reflexivity.
  - rewrite (init_unavailable models env model_name ctx false Hrt).
    cbn [fst]. rewrite <- (app_nil_r (map EvPrint _)), printed_prints.
    apply app_nil_r.
Qed.

(** ** Streaming, continued *)

Lemma pull_closed (env : Env) (k : nat) :
  pull env k GenClosed = ([], repeat (Ret None) k, GenClosed).
Proof.
  induction k as [|k IH]; [reflexivity|].
  cbn [pull gen_next ret]. rewrite IH. reflexivity.
Qed.

Lemma pull_suspended_to_end (env : Env) (it : stream) :
  forall n : nat,
    (stream_length it < n)%nat ->
    fst (fst (pull env n (GenSuspended it))) = [] /\
    snd (pull env n (GenSuspended it)) = GenClosed.
Proof.
  induction it as [|token rest IH|e]; intros [|n] Hn;
    try (exfalso; cbn in Hn; lia).
  - cbn [pull gen_next loop_turn ret]. rewrite pull_closed. split; reflexivity.
  - cbn [pull gen_next loop_turn ret].
    destruct (IH n) as [Ht Hg]; [cbn in Hn; lia|].
    destruct (pull env n (GenSuspended rest)) as [[t' rs] g''].
    cbn in Ht, Hg |- *. subst. split; reflexivity.
  - cbn [pull gen_next loop_turn raise]. rewrite pull_closed. split; reflexivity.
Qed.

Lemma pull_suspended_prefix (env : Env) :
  forall (k : nat) (it : stream),
    (k <= stream_length it)%nat ->
    pull env k (GenSuspended it) =
      ([], map (fun token => Ret (Some token)) (firstn k (fst (collect it))),
       GenSuspended (stream_drop k it)).
Proof.
  induction k as [|k IH]; intros it Hk.
  - destruct it; reflexivity.
  - destruct it as [|token rest|e]; try (exfalso; cbn in Hk; lia).
    cbn [pull gen_next loop_turn ret].
    rewrite (IH rest) by (cbn in Hk; lia).
    cbn [collect stream_drop]. destruct (collect rest) as [tokens e]. reflexivity.
Qed.

(** X7: the generator is one-shot.  Once it has been pulled more times
    than the external iterator has fragments it is finished, whether the
    iterator ended or raised; all those pulls together made one call to
    the external streaming routine (none if [mlx_lm] does not import);
    and every later pull returns StopIteration with no event. *)
Theorem generator_is_one_shot :
  forall (env : Env) (self : Session) (prompt : string) (max_tokens : Z)
         (temperature : Q) (n : nat),
    (stream_length (mlx_lm_stream_generate env [model self; tokenizer self]
                      (stream_kwargs prompt max_tokens temperature)) < n)%nat ->
    let run := pull env n (stream_generate self prompt max_tokens temperature) in
    snd run = GenClosed /\
    fst (fst run) =
      (if importable env "mlx_lm"
       then [EvCall "mlx_lm.stream_generate" [model self; tokenizer self]
               (stream_kwargs prompt max_tokens temperature)]
       else []) /\
    (forall k : nat,
       pull env k (snd run) = ([], repeat (Ret None) k, GenClosed)).
Proof.
  intros env self prompt max_tokens temperature n Hn run.
  assert (Hrun : snd run = GenClosed /\
                 fst (fst run) =
                   (if importable env "mlx_lm"
                    then [EvCall "mlx_lm.stream_generate" [model self; tokenizer self]
                            (stream_kwargs prompt max_tokens temperature)]
                    else [])).
  { unfold run, stream_generate.
    destruct n as [|n]; [exfalso; lia|].
    cbn [pull gen_next]. unfold import_from, call_stream_generate.
    fold (stream_kwargs prompt max_tokens temperature).
    destruct (importable env "mlx_lm").
    - destruct (mlx_lm_stream_generate env [model self; tokenizer self]
                  (stream_kwargs prompt max_tokens temperature)) as [|token rest|e].
      + cbn [loop_turn ret]. rewrite pull_closed. split; reflexivity.
      + cbn [loop_turn ret].
        destruct (pull_suspended_to_end env rest n) as [Ht Hg]; [cbn in Hn; lia|].
        destruct (pull env n (GenSuspended rest)) as [[t' rs] g''].
        cbn in Ht, Hg |- *. subst. split; reflexivity.
      + cbn [loop_turn raise ret]. rewrite pull_closed. split; reflexivity.
    - cbn [raise]. rewrite pull_closed. split; reflexivity. }
  destruct Hrun as [Hg Ht].
  split; [exact Hg|]. split; [exact Ht|].
  intro k. rewrite Hg. apply pull_closed.
Qed.

Lemma generator_is_one_shot_witness :
  let run := pull (Samples.installed []) 6 (stream_generate Samples.session "Hi" 8 (7 # 10)) in
  snd run = GenClosed /\
  fst (fst run) =
    [EvCall "mlx_lm.stream_generate" [PObj 1; PObj 2]
       [("prompt", PStr "Hi"); ("max_tokens", PInt 8); ("temp", PFloat (7 # 10))]] /\
  (forall k : nat,
     pull (Samples.installed []) k (snd run) = ([], repeat (Ret None) k, GenClosed)).
Proof.
  apply (generator_is_one_shot (Samples.installed []) Samples.session "Hi" 8 (7 # 10) 6%nat).
  cbn. lia.
Defined.

(** X8: the generator reads no further than it was asked to.  With
    [mlx_lm] importable, the first [k] pulls (for [k] at least one and at
    most the number of fragments) return the first [k] fragments of the
    external iterator, in its order, after the single call that opened
    it, and leave the generator suspended on the iterator's remainder. *)
Theorem first_pulls_yield_first_fragments :
  forall (env : Env) (self : Session) (prompt : string) (max_tokens : Z)
         (temperature : Q) (k : nat),
    importable env "mlx_lm" = true ->
    (1 <= k)%nat ->
    (k <= stream_length (mlx_lm_stream_generate env [model self; tokenizer self]
                           (stream_kwargs prompt max_tokens temperature)))%nat ->
    pull env k (stream_generate self prompt max_tokens temperature) =
      ([EvCall "mlx_lm.stream_generate" [model self; tokenizer self]
          (stream_kwargs prompt max_tokens temperature)],
       map (fun token => Ret (Some token))
         (firstn k (fst (collect
            (mlx_lm_stream_generate env [model self; tokenizer self]
               (stream_kwargs prompt max_tokens temperature))))),
       GenSuspended
         (stream_drop k
            (mlx_lm_stream_generate env [model self; tokenizer self]
               (stream_kwargs prompt max_tokens temperature)))).
Proof.
  intros env self prompt max_tokens temperature k Hlm Hk1 Hk.
  destruct k as [|k]; [exfalso; lia|].
  unfold stream_generate. cbn [pull gen_next].
  unfold import_from, call_stream_generate. rewrite Hlm.
  fold (stream_kwargs prompt max_tokens temperature).
  destruct (mlx_lm_stream_generate env [model self; tokenizer self]
              (stream_kwargs prompt max_tokens temperature)) as [|token rest|e];
    try (exfalso; cbn in Hk; lia).
  cbn [loop_turn ret].
  rewrite (pull_suspended_prefix env k rest) by (cbn in Hk; lia).
  cbn [collect stream_drop]. destruct (collect rest) as [tokens e]. reflexivity.
Qed.

Lemma first_pulls_yield_first_fragments_witness :
  pull (Samples.installed []) 2 (stream_generate Samples.session "Hi" 8 (7 # 10)) =
    ([EvCall "mlx_lm.stream_generate" [PObj 1; PObj 2]
        [("prompt", PStr "Hi"); ("max_tokens", PInt 8); ("temp", PFloat (7 # 10))]],
     [Ret (Some "Hi"); Ret (Some " | ")],
     GenSuspended (SItem "Hi" SEnd)).
Proof.
  apply (first_pulls_yield_first_fragments (Samples.installed []) Samples.session
           "Hi" 8 (7 # 10) 2%nat).
  - reflexivity.
  - lia.
  - cbn. lia.
Defined.

(** ** The command line, continued *)

Lemma init_4bit_prints_no_response (env : Env) :
  existsb is_response (fst (__init__ env "4bit" 2048 true)) = false.
Proof.
  unfold __init__.
  destruct (runtime_available env) eqn:Hrt.
  - rewrite (init_known MODELS env "4bit" 2048 true _ Hrt eq_refl).
    destruct (mlx_lm_load env _ _); reflexivity.
  - rewrite (init_unavailable MODELS env "4bit" 2048 true Hrt). reflexivity.
Qed.

Lemma chat_prints_nothing (env : Env) (self : Session)
    (messages : list ChatMessage) (max_tokens : Z) (temperature : Q) :
  existsb is_print (fst (chat env self messages max_tokens temperature)) = false.
Proof.
  unfold chat, call_apply_chat_template.
  destruct (apply_chat_template env _ _ _) as [prompt|e]; [|reflexivity].
  rewrite bind_Ret. cbn [fst].
  unfold generate, import_from, call_generate.
  destruct (importable env "mlx_lm"); [|reflexivity].
  unfold ret. rewrite bind_Ret. cbn [fst].
  destruct (mlx_lm_generate env _ _); reflexivity.
Qed.

Lemma response_is_print (tr : trace) :
  existsb is_print tr = false -> existsb is_response tr = false.
Proof.
  induction tr as [|e tr IH]; [reflexivity|].
  destruct e; cbn; try discriminate; exact IH.
Qed.

(** X9: with [--confirm] on a machine without the runtime, [main] prints
    its note and the installation guidance and the script exits with
    status 1; nothing is loaded, rendered or generated. *)
Theorem main_exits_1_without_runtime :
  forall env : Env,
    argparse_store_true env "--confirm" (tl (sys_argv env)) = Ret true ->
    runtime_available env = false ->
    main env = (map EvPrint (intro_lines ++ missing_lines), Raise (SystemExit 1)) /\
    exit_status (snd (main env)) = 1 /\
    external_events (fst (main env)) = [].
Proof.
  intros env Hargs Hrt.
  rewrite (main_unfold env true Hargs). cbv zeta.
  unfold __init__.
  rewrite (init_unavailable MODELS env "4bit" _ _ Hrt), bind_Raise.
  cbn [fst snd]. rewrite <- map_app.
  split; [reflexivity|]. split; [reflexivity|].
  rewrite <- (app_nil_r (map EvPrint _)). apply external_events_prints.
Qed.

Lemma main_exits_1_without_runtime_witness :
  main (Samples.bare ["--confirm"]) =
    (map EvPrint (intro_lines ++ missing_lines), Raise (SystemExit 1)) /\
  exit_status (snd (main (Samples.bare ["--confirm"]))) = 1.
Proof.
  pose proof (main_exits_1_without_runtime (Samples.bare ["--confirm"]) eq_refl eq_refl)
    as [Hmain [Hstatus _]].
  split; [exact Hmain | exact Hstatus].
Defined.



(** X11: with [--confirm], [main] returns normally exactly when the
    constructor returned a session and the chat on it returned a
    response, and it prints a response line exactly then; otherwise its
    outcome is the exception of the constructor, or else of the chat,
    unchanged. *)
Theorem main_prints_response_iff_success :
  forall env : Env,
    argparse_store_true env "--confirm" (tl (sys_argv env)) = Ret true ->
    (snd (main env) = Ret tt <->
       exists (self : Session) (response : string),
         snd (__init__ env "4bit" 2048 true) = Ret self /\
         snd (chat env self example_messages 512 (7 # 10)) = Ret response) /\
    (existsb is_response (fst (main env)) = true <-> snd (main env) = Ret tt) /\
    (forall e, snd (main env) = Raise e ->
       snd (__init__ env "4bit" 2048 true) = Raise e \/
       exists self : Session,
         snd (__init__ env "4bit" 2048 true) = Ret self /\
         snd (chat env self example_messages 512 (7 # 10)) = Raise e).
Proof.
  intros env Hargs.
  rewrite (main_unfold env true Hargs). cbv zeta.
  change init_default_max_tokens with 2048. change init_default_verbose with true.
  change default_max_tokens with 512. change default_temperature with (7 # 10).
  pose proof (init_4bit_prints_no_response env) as Hinit.
  destruct (__init__ env "4bit" 2048 true) as [t1 [self|e1]].
  - rewrite bind_Ret. cbn [fst snd] in Hinit |- *.
    pose proof (response_is_print _
                  (chat_prints_nothing env self example_messages 512 (7 # 10))) as Hchat.
    destruct (chat env self example_messages 512 (7 # 10)) as [t2 [response|e2]] eqn:Hc.
    + rewrite bind_Ret. unfold print. cbn [fst snd] in Hchat |- *.
      split; [|split].
      * split; [|reflexivity].
        intros _. exists self, response. rewrite Hc. split; reflexivity.
      * rewrite !existsb_app, Hinit, Hchat. destruct response; cbn; tauto.
      * discriminate.
    + rewrite bind_Raise. cbn [fst snd] in Hchat |- *.
      split; [|split].
      * split; [discriminate|].
        intros [s [r [Hs Hr]]]. injection Hs as <-. rewrite Hc in Hr. discriminate Hr.
      * rewrite !existsb_app, Hinit, Hchat. cbn.
        split; discriminate.
      * intros e He. injection He as <-. right. exists self. rewrite Hc.
        split; reflexivity.
  - rewrite bind_Raise. cbn [fst snd] in Hinit |- *.
    split; [|split].
    + split; [discriminate|]. intros [s [r [Hs _]]]. discriminate Hs.
    + rewrite existsb_app, Hinit. cbn. split; discriminate.
    + intros e He. injection He as <-. left. reflexivity.
Qed.

Lemma main_prints_response_iff_success_witness :
  snd (main (Samples.installed ["--confirm"])) = Ret tt /\
  existsb is_response (fst (main (Samples.installed ["--confirm"]))) = true /\
  snd (main (Samples.offline ["--confirm"])) = Raise (Foreign "ConnectionError") /\
  existsb is_response (fst (main (Samples.offline ["--confirm"]))) = false.
Proof.
  pose proof (main_prints_response_iff_success (Samples.installed ["--confirm"]) eq_refl)
    as [Hok [Hline _]].
  pose proof (main_prints_response_iff_success (Samples.offline ["--confirm"]) eq_refl)
    as [_ [Hline' _]].
  assert (H : snd (main (Samples.installed ["--confirm"])) = Ret tt).
  { apply Hok. do 2 eexists. split; reflexivity. }
  split; [exact H|]. split; [apply Hline; exact H|].
  split; [reflexivity|].
  destruct (existsb is_response (fst (main (Samples.offline ["--confirm"])))) eqn:E;
    [|reflexivity].
  pose proof (proj1 Hline' eq_refl) as Hbad. discriminate Hbad.
Defined.

(** ** Generation, continued *)

(** X12: [generate] and [chat] print nothing themselves, also on a
    verbose session, and never call the load routine: [generate] makes at
    most the one generation call, and [chat] at most the rendering call
    followed by the generation call. *)
Theorem generation_is_silent_and_never_loads :
  forall (env : Env) (self : Session) (prompt : string)
         (messages : list ChatMessage) (max_tokens : Z) (temperature top_p : Q),
    let tg := fst (generate env self prompt max_tokens temperature top_p) in
    let tc := fst (chat env self messages max_tokens temperature) in
    printed tg = [] /\
    printed tc = [] /\
    calls_of "mlx_lm.load" tg = [] /\
    calls_of "mlx_lm.load" tc = [] /\
    (List.length tg <= 1)%nat /\
    (List.length tc <= 2)%nat /\
    hd_error tc =
      Some (EvMethod (tokenizer self) "apply_chat_template"
              [PList (map message_val messages)]
              [("tokenize", PBool false); ("add_generation_prompt", PBool true)]).
Proof.
  intros env self prompt messages max_tokens temperature top_p tg tc.
  unfold tg, tc, chat, generate, call_apply_chat_template, import_from, call_generate.
  destruct (apply_chat_template env _ _ _) as [rendered|e];
    destruct (importable env "mlx_lm"); unfold ret, raise;
    rewrite ?bind_Ret, ?bind_Raise; cbn [fst snd];
    try destruct (mlx_lm_generate env _ (("prompt", PStr prompt) :: _));
    try destruct (mlx_lm_generate env _ (("prompt", PStr rendered) :: _));
    cbn; repeat split; lia.
Qed.
